(** * pulp_ansible/app/tasks/utils.py

    A shallow embedding of the four helpers of [pulp_ansible.app.tasks.utils]
    and the properties of them that the specification relies on.

    Python strings are sequences of Unicode code points.  The functions of
    external packages ([yaml.safe_load], [urllib.parse], the Unicode table
    behind [\w], [semantic_version]) are not part of the repository: they
    are section variables, and each theorem says which of their outcomes it
    is about. *)

From Stdlib Require Import List NArith ZArith Bool String Ascii Lia.
From Stdlib Require Import DecimalString.
Import ListNotations.

Set Implicit Arguments.

Open Scope string_scope.
Open Scope list_scope.

(** ** Python strings *)

Definition char := N.
Definition str := list char.

(** An ASCII literal as a Python string. *)
Definition u (s : string) : str := map N_of_ascii (list_ascii_of_string s).

Definition LF : char := 10%N.

Fixpoint str_eqb (a b : str) : bool :=
  match a, b with
  | [], [] => true
  | x :: a', y :: b' => N.eqb x y && str_eqb a' b'
  | _, _ => false
  end.

(** [needle in haystack] for two strings. *)
Definition str_in (needle haystack : str) : Prop :=
  exists before after, haystack = before ++ needle ++ after.

(** [str(n)] for an [int]. *)
Definition str_of_int (z : Z) : str := u (NilZero.string_of_int (Z.to_int z)).

(** ** Exceptions and results *)

Inductive exn :=
| ValidationError (detail : str)
| TypeError (msg : str)
| ValueError (msg : str)
| Exception (cls msg : str).

Inductive result (A : Type) :=
| Return (a : A)
| Raise (e : exn).
Arguments Return {A} a.
Arguments Raise {A} e.

Definition bind {A B} (m : result A) (k : A -> result B) : result B :=
  match m with
  | Return a => k a
  | Raise e => Raise e
  end.

Notation "x <- m ;; k" := (bind m (fun x => k))
  (at level 61, m at next level, right associativity).

(** ** Values that [yaml.safe_load] constructs *)

#[warnings="-register-all"]
Inductive pyobj :=
| PyNone
| PyBool (b : bool)
| PyInt (z : Z)
| PyFloat (repr : str)
| PyStr (s : str)
| PyBytes (b : list N)
| PyDate (repr : str)
| PyDatetime (repr : str)
| PyList (l : list pyobj)
| PyTuple (l : list pyobj)
| PySet (l : list pyobj)
| PyDict (d : list (pyobj * pyobj)).

(** A [dict] keeps its items in insertion order. *)
Definition dict := list (pyobj * pyobj).

(** [key == k] for a string [k]: no other value that the loader builds is
    equal to a [str]. *)
Definition key_is (k : str) (key : pyobj) : bool :=
  match key with
  | PyStr s => str_eqb s k
  | _ => false
  end.

Fixpoint dict_lookup (d : dict) (k : str) : option pyobj :=
  match d with
  | [] => None
  | (key, v) :: d' => if key_is k key then Some v else dict_lookup d' k
  end.

(** [k in d] *)
Definition dict_contains (d : dict) (k : str) : bool :=
  match dict_lookup d k with Some _ => true | None => false end.

(** [d.get(k, default)] *)
Definition dict_get (d : dict) (k : str) (default : pyobj) : pyobj :=
  match dict_lookup d k with Some v => v | None => default end.

Definition is_None (v : pyobj) : bool :=
  match v with PyNone => true | _ => false end.

Definition type_name (v : pyobj) : str :=
  match v with
  | PyNone => u "NoneType"
  | PyBool _ => u "bool"
  | PyInt _ => u "int"
  | PyFloat _ => u "float"
  | PyStr _ => u "str"
  | PyBytes _ => u "bytes"
  | PyDate _ => u "datetime.date"
  | PyDatetime _ => u "datetime.datetime"
  | PyList _ => u "list"
  | PyTuple _ => u "tuple"
  | PySet _ => u "set"
  | PyDict _ => u "dict"
  end.

(** The items a [for] loop over [v] visits, or the [TypeError] of [iter(v)]. *)
Definition py_iter (v : pyobj) : result (list pyobj) :=
  match v with
  | PyStr s => Return (map (fun c => PyStr [c]) s)
  | PyBytes b => Return (map (fun n => PyInt (Z.of_N n)) b)
  | PyList l | PyTuple l | PySet l => Return l
  | PyDict d => Return (map fst d)
  | _ => Raise (TypeError (u "'" ++ type_name v ++ u "' object is not iterable"))
  end.

(** ** parse_collections_requirements_file *)

(** What [yaml.safe_load] does with a document. *)
Inductive load_result :=
| Loaded (requirements : pyobj)
| YAMLError (err : str)          (* an exception of class YAMLError; [str(err)] *)
| LoadRaised (e : exn).          (* any other exception *)

Definition requirement : Type := pyobj * pyobj * pyobj.

Section Requirements.

Variable safe_load : str -> load_result.

(** The message catalog [gettext] consults; a message that is not in it is
    returned as it is. *)
Variable catalog : list (str * str).

Fixpoint translation (cat : list (str * str)) (message : str) : option str :=
  match cat with
  | [] => None
  | (msgid, msgstr) :: cat' =>
      if str_eqb msgid message then Some msgstr else translation cat' message
  end.

Definition gettext (message : str) : str :=
  match translation catalog message with
  | Some t => t
  | None => message
  end.

Definition parse_failed_message (file err : str) : str :=
  u "Failed to parse the collection requirements yml: " ++ file ++
  u " with the following error: " ++ err.

Definition expecting_dict_message : str :=
  u "Expecting collections requirements file to be a dict with the key " ++
  u "collections that contains a list of collections to install.".

Definition missing_name_message : str :=
  u "Collections requirement entry should contain the key name.".

(** The body of the [for] loop, for one element: the triple it appends. *)
Definition requirement_entry (collection_req : pyobj) : result requirement :=
  match collection_req with
  | PyDict d =>
      let req_name := dict_get d (u "name") PyNone in
      if is_None req_name then
        Raise (ValidationError (gettext missing_name_message))
      else
        let req_version := dict_get d (u "version") (PyStr (u "*")) in
        let req_source := dict_get d (u "source") PyNone in
        Return (req_name, req_version, req_source)
  | _ => Return (collection_req, PyStr (u "*"), PyNone)
  end.

(** The [for] loop over the remaining elements, [collection_info] being
    the list built so far. *)
Fixpoint collect (items : list pyobj) (collection_info : list requirement)
  : result (list requirement) :=
  match items with
  | [] => Return collection_info
  | collection_req :: rest =>
      entry <- requirement_entry collection_req ;;
      collect rest (collection_info ++ [entry])
  end.

(** [if requirements_file_string:] *)
Definition nonempty (requirements_file_string : option str) : option str :=
  match requirements_file_string with
  | None | Some [] => None
  | Some s => Some s
  end.

Definition parse_collections_requirements_file
  (requirements_file_string : option str) : result (list requirement) :=
  let collection_info := [] in
  match nonempty requirements_file_string with
  | Some text =>
      match safe_load text with
      | YAMLError err =>
          Raise (ValidationError (gettext (parse_failed_message text err)))
      | LoadRaised e => Raise e
      | Loaded requirements =>
          match requirements with
          | PyDict d =>
              match dict_lookup d (u "collections") with
              | Some collections =>
                  items <- py_iter collections ;;
                  collect items collection_info
              | None =>
                  Raise (ValidationError (gettext expecting_dict_message))
              end
          | _ => Raise (ValidationError (gettext expecting_dict_message))
          end
      end
  | None => Return collection_info
  end.

End Requirements.

(** ** parse_collection_filename *)

Record CollectionFilename := mkCollectionFilename
  { namespace : str; name : str; version : str }.

Definition is_digit (c : char) : bool := (48 <=? c)%N && (c <=? 57)%N.
Definition is_upper (c : char) : bool := (65 <=? c)%N && (c <=? 90)%N.
Definition is_lower (c : char) : bool := (97 <=? c)%N && (c <=? 122)%N.

(** The regular expressions of the file use four constructs: the anchors
    [^] and [$], a literal character, and a named group around one
    character class repeated with [+]. *)
Inductive item :=
| Bol
| Eol
| Lit (c : char)
| Group (label : string) (cls : char -> bool).

Definition regex := list item.

(** [cls+] followed by the rest of the pattern [k], the way a backtracking
    matcher tries it: as many characters as possible first, then one fewer
    each time the rest fails.  [taken] is what the group holds so far. *)
Fixpoint greedy (cls : char -> bool) (k : str -> option (list str))
  (s taken : str) : option (list str) :=
  match s with
  | [] => None
  | x :: s' =>
      if cls x then
        match greedy cls k s' (taken ++ [x]) with
        | Some groups => Some groups
        | None => option_map (cons (taken ++ [x])) (k s')
        end
      else None
  end.

(** Matching pattern [p] at a position of the subject where [s] is left;
    [at_start] says that the position is the start of the subject.  The
    result is the text of the groups, in order. *)
Fixpoint run (p : regex) (at_start : bool) (s : str) : option (list str) :=
  match p with
  | [] => Some []
  | Bol :: p' => if at_start then run p' at_start s else None
  | Eol :: p' =>
      (* the end of the subject, or just before a newline that ends it *)
      match s with
      | [] => run p' at_start s
      | [c] => if (c =? LF)%N then run p' at_start s else None
      | _ => None
      end
  | Lit c :: p' =>
      match s with
      | x :: s' => if (x =? c)%N then run p' false s' else None
      | [] => None
      end
  | Group _ cls :: p' => greedy cls (run p' false) s []
  end.

(** [pattern.match(subject)] and the [groups()] of the match. *)
Definition re_match (p : regex) (subject : str) : option (list str) :=
  run p true subject.

Definition literal (s : string) : regex := map Lit (u s).

Section Filename.

(** [str.isalnum] on the code points above ASCII (the Unicode database). *)
Variable unicode_alnum : char -> bool.

(** [semver.Version.parse]: [None] when it returns, [Some msg] when it
    raises [ValueError(msg)]. *)
Variable Version_parse : str -> option str.

Definition isalnum (c : char) : bool :=
  if (c <? 128)%N then is_digit c || is_upper c || is_lower c
  else unicode_alnum c.

(** [\w] in a [str] pattern: alphanumeric or the underscore. *)
Definition word (c : char) : bool := isalnum c || (c =? 95)%N.

(** [[0-9a-zA-Z.+-]] *)
Definition version_char (c : char) : bool :=
  is_digit c || is_lower c || is_upper c ||
  (c =? 46)%N || (c =? 43)%N || (c =? 45)%N.

Definition FILENAME_RE : regex :=
  [Bol; Group "namespace" word; Lit 45%N; Group "name" word; Lit 45%N;
   Group "version" version_char] ++ literal ".tar.gz" ++ [Eol].

Definition invalid_filename_message : str :=
  u "Invalid filename. Expected: {namespace}-{name}-{version}.tar.gz".

Definition parse_collection_filename (filename : str)
  : result CollectionFilename :=
  match re_match FILENAME_RE filename with
  | None => Raise (ValueError invalid_filename_message)
  | Some [namespace; name; version] =>
      match Version_parse version with
      | Some msg => Raise (ValueError msg)
      | None => Return (mkCollectionFilename namespace name version)
      end
  | Some _ =>
      (* unpacking anything but three values; the pattern has three groups *)
      Raise (ValueError (u "not enough values to unpack"))
  end.

End Filename.

(** ** get_page_url *)

Record ParseResult := mkParseResult
  { scheme : str; netloc : str; path : str; params : str; query : str;
    fragment : str }.

(** [parsed_url._replace(query=q)] *)
Definition replace_query (parsed_url : ParseResult) (q : str) : ParseResult :=
  {| scheme := scheme parsed_url; netloc := netloc parsed_url;
     path := path parsed_url; params := params parsed_url; query := q;
     fragment := fragment parsed_url |}.

(** The values of the query dict: [parse_qs] binds every name to a list of
    strings, and the function binds ["page"] to an [int]. *)
Inductive qvalue :=
| QList (values : list str)
| QInt (z : Z).

Definition qdict := list (str * qvalue).

(** [d[k] = v]: an existing key keeps its place, a new one goes last. *)
Fixpoint qdict_set (d : qdict) (k : str) (v : qvalue) : qdict :=
  match d with
  | [] => [(k, v)]
  | (k', v') :: d' =>
      if str_eqb k' k then (k', v) :: d' else (k', v') :: qdict_set d' k v
  end.

Fixpoint qdict_lookup {V : Type} (d : list (str * V)) (k : str) : option V :=
  match d with
  | [] => None
  | (k', v) :: d' => if str_eqb k' k then Some v else qdict_lookup d' k
  end.

Section PageUrl.

(** [urllib.parse]; [urlencode] is the call with [doseq=True]. *)
Variable urlparse : str -> result ParseResult.
Variable parse_qs : str -> result (list (str * list str)).
Variable urlencode : qdict -> result str.
Variable urlunparse : ParseResult -> result str.

Definition get_page_url (url : str) (page : Z) : result str :=
  parsed_url <- urlparse url ;;
  parsed_query <- parse_qs (query parsed_url) ;;
  let new_query := map (fun kv => (fst kv, QList (snd kv))) parsed_query in
  let new_query := qdict_set new_query (u "page") (QInt page) in
  encoded <- urlencode new_query ;;
  urlunparse (replace_query parsed_url encoded).

(** The call with the default [page=1]. *)
Definition get_page_url_default (url : str) : result str :=
  get_page_url url 1.

End PageUrl.

(** ** Semantic versions

    The grammar of semver.org 2.0.0, which the specification means by a
    valid semantic version: [major.minor.patch], then optionally [-] and
    dot-separated pre-release identifiers, then optionally [+] and
    dot-separated build identifiers. *)

(** [s.partition(sep)]: the text before the first [sep], and the text after
    it when there is one. *)
Fixpoint cut (sep : char) (s : str) : str * option str :=
  match s with
  | [] => ([], None)
  | c :: s' =>
      if (c =? sep)%N then ([], Some s')
      else let (before, after) := cut sep s' in (c :: before, after)
  end.

(** [s.split(sep)] *)
Fixpoint split (sep : char) (s : str) : list str :=
  match s with
  | [] => [[]]
  | c :: s' =>
      if (c =? sep)%N then [] :: split sep s'
      else match split sep s' with
           | field :: fields => (c :: field) :: fields
           | [] => [[c]]
           end
  end.

Definition numeric_identifier (s : str) : bool :=
  match s with
  | [] => false
  | [c] => is_digit c
  | c :: _ => forallb is_digit s && negb (c =? 48)%N
  end.

Definition identifier_char (c : char) : bool :=
  is_digit c || is_upper c || is_lower c || (c =? 45)%N.

Definition build_identifier (s : str) : bool :=
  match s with
  | [] => false
  | _ => forallb identifier_char s
  end.

Definition prerelease_identifier (s : str) : bool :=
  build_identifier s && (negb (forallb is_digit s) || numeric_identifier s).

Definition version_core (s : str) : bool :=
  match split 46%N s with
  | [major; minor; patch] =>
      numeric_identifier major && numeric_identifier minor &&
      numeric_identifier patch
  | _ => false
  end.

Definition is_semver (v : str) : bool :=
  let (core_pre, build) := cut 43%N v in
  let (core, pre) := cut 45%N core_pre in
  version_core core &&
  match pre with
  | Some p => forallb prerelease_identifier (split 46%N p)
  | None => true
  end &&
  match build with
  | Some b => forallb build_identifier (split 46%N b)
  | None => true
  end.

(** ** The grammar of FILENAME_RE, spelled out

    The strings the pattern denotes: [$] also stands before a newline that
    ends the subject. *)
Definition filename_grammar (word version_char : char -> bool)
  (filename ns nm ver : str) : Prop :=
  exists tail,
    filename = ns ++ 45%N :: nm ++ 45%N :: ver ++ u ".tar.gz" ++ tail /\
    (tail = [] \/ tail = [LF]) /\
    ns <> [] /\ forallb word ns = true /\
    nm <> [] /\ forallb word nm = true /\
    ver <> [] /\ forallb version_char ver = true.

(** ** Query strings, field by field *)

(** The [name=value] fields of a query string, as written. *)
Definition fields (q : str) : list str := split 38%N q.

(** What a reader of the encoded query finds for each name: an [int] was
    written with [str]. *)
Definition written (v : qvalue) : list str :=
  match v with
  | QList values => values
  | QInt z => [str_of_int z]
  end.

Definition new_query (parsed_query : list (str * list str)) (page : Z) : qdict :=
  qdict_set (map (fun kv => (fst kv, QList (snd kv))) parsed_query)
    (u "page") (QInt page).

Definition keys {V : Type} (d : list (str * V)) : list str := map fst d.

Definition other_keys {V : Type} (d : list (str * V)) : list str :=
  filter (fun k => negb (str_eqb k (u "page"))) (keys d).

(** ** The manifest entries, as the specification words them *)

(** An entry the loop accepts: anything that is not a mapping, and a
    mapping that binds ["name"] to something other than [None]. *)
Definition has_name (collection_req : pyobj) : bool :=
  match collection_req with
  | PyDict d =>
      match dict_lookup d (u "name") with
      | Some PyNone | None => false
      | Some _ => true
      end
  | _ => true
  end.

(** A mapping that contains the key ["name"], whatever it is bound to. *)
Definition contains_name (collection_req : pyobj) : bool :=
  match collection_req with
  | PyDict d => dict_contains d (u "name")
  | _ => false
  end.

(** The triple of an entry: the bound values, ["*"] for a missing
    ["version"], [None] for a missing ["source"]; a bare element is its
    own name. *)
Definition spec_triple (collection_req : pyobj) : requirement :=
  match collection_req with
  | PyDict d =>
      (match dict_lookup d (u "name") with Some n => n | None => PyNone end,
       match dict_lookup d (u "version") with
       | Some v => v
       | None => PyStr (u "*")
       end,
       match dict_lookup d (u "source") with Some s => s | None => PyNone end)
  | _ => (collection_req, PyStr (u "*"), PyNone)
  end.

(** The mapping without the key [k]. *)
Definition dict_remove (d : dict) (k : str) : dict :=
  filter (fun kv => negb (key_is k (fst kv))) d.

(** The top-level shape the parser asks for: a mapping with the key
    ["collections"]. *)
Definition top_level_shape (requirements : pyobj) : bool :=
  match requirements with
  | PyDict d => dict_contains d (u "collections")
  | _ => false
  end.

(** ** The libraries on sample inputs

    What PyYAML's [safe_load], CPython's [urllib.parse] and
    [semantic_version] give on the inputs of the examples below.  Each
    table lists inputs with their outcome; an input outside a table is
    answered with [LookupError]. *)
Module Sample.

Definition lines (l : list string) : str :=
  match l with
  | [] => []
  | first :: more =>
      u first ++ flat_map (fun line => LF :: u line) more
  end.

Fixpoint lookup {K V : Type} (eqb : K -> K -> bool) (table : list (K * V))
  (k : K) : option V :=
  match table with
  | [] => None
  | (k', v) :: table' => if eqb k' k then Some v else lookup eqb table' k
  end.

Definition outside : exn := Exception (u "LookupError") (u "outside the table").

(** *** yaml.safe_load *)

Definition manifest_two_entries : str :=
  lines ["collections:"; "  - foo.bar"; "  - name: foo.baz";
         "    version: '1.0.0'"].
Definition manifest_duplicates : str :=
  lines ["collections:"; "  - foo.bar"; "  - foo.bar"].
Definition manifest_wrong_shape : str := u "not: a-valid-shape".
Definition manifest_sequence : str := lines ["- foo.bar"; "- foo.baz"].
Definition manifest_malformed : str := u "collections: [".
Definition manifest_no_name : str :=
  lines ["collections:"; "  - version: '1.0.0'"].
Definition manifest_null_name : str :=
  lines ["collections:"; "  - name:"; "    version: '1.0.0'"].
Definition manifest_null_collections : str := u "collections:".
Definition manifest_string_collections : str := u "collections: abc".

(** The two messages of the [ParserError], without the position marks. *)
Definition flow_node_error : str :=
  lines ["while parsing a flow node";
         "expected the node content, but found '<stream end>'"].

Definition entry (kvs : list (string * string)) : pyobj :=
  PyDict (map (fun kv => (PyStr (u (fst kv)), PyStr (u (snd kv)))) kvs).

Definition collections_of (v : pyobj) : pyobj :=
  PyDict [(PyStr (u "collections"), v)].

Definition yaml_table : list (str * load_result) :=
  [ (manifest_two_entries,
     Loaded (collections_of
               (PyList [PyStr (u "foo.bar");
                        entry [("name", "foo.baz"); ("version", "1.0.0")]])));
    (manifest_duplicates,
     Loaded (collections_of
               (PyList [PyStr (u "foo.bar"); PyStr (u "foo.bar")])));
    (manifest_wrong_shape, Loaded (entry [("not", "a-valid-shape")]));
    (manifest_sequence,
     Loaded (PyList [PyStr (u "foo.bar"); PyStr (u "foo.baz")]));
    (manifest_malformed, YAMLError flow_node_error);
    (manifest_no_name,
     Loaded (collections_of (PyList [entry [("version", "1.0.0")]])));
    (manifest_null_name,
     Loaded (collections_of
               (PyList [PyDict [(PyStr (u "name"), PyNone);
                                (PyStr (u "version"), PyStr (u "1.0.0"))]])));
    (manifest_null_collections, Loaded (collections_of PyNone));
    (manifest_string_collections, Loaded (collections_of (PyStr (u "abc")))) ].

Definition safe_load (text : str) : load_result :=
  match lookup str_eqb yaml_table text with
  | Some outcome => outcome
  | None => LoadRaised outside
  end.

(** *** re and semantic_version *)

(** [str.isalnum] on the Latin-1 supplement, and nothing above it. *)
Definition unicode_alnum (c : char) : bool :=
  existsb (N.eqb c) [170; 178; 179; 181; 185; 186; 188; 189; 190]%N ||
  ((192 <=? c) && (c <=? 255) && negb (c =? 215) && negb (c =? 247))%N.

(** A parser that accepts exactly the semantic versions. *)
Definition Version_parse (v : str) : option str :=
  if is_semver v then None
  else Some (u "Invalid version string: '" ++ v ++ u "'").

(** *** urllib.parse *)

Definition ParseResult_eqb (a b : ParseResult) : bool :=
  str_eqb (scheme a) (scheme b) && str_eqb (netloc a) (netloc b) &&
  str_eqb (path a) (path b) && str_eqb (params a) (params b) &&
  str_eqb (query a) (query b) && str_eqb (fragment a) (fragment b).

Fixpoint strs_eqb (a b : list str) : bool :=
  match a, b with
  | [], [] => true
  | x :: a', y :: b' => str_eqb x y && strs_eqb a' b'
  | _, _ => false
  end.

Definition qvalue_eqb (a b : qvalue) : bool :=
  match a, b with
  | QList x, QList y => strs_eqb x y
  | QInt x, QInt y => Z.eqb x y
  | _, _ => false
  end.

Fixpoint qdict_eqb (a b : qdict) : bool :=
  match a, b with
  | [], [] => true
  | (k, v) :: a', (k', v') :: b' =>
      str_eqb k k' && qvalue_eqb v v' && qdict_eqb a' b'
  | _, _ => false
  end.

Definition http_x (q : string) : ParseResult :=
  mkParseResult (u "http") (u "x") (u "/") [] (u q) [].

Definition urlparse_table : list (str * result ParseResult) :=
  [ (u "http://x/?a=1&a=2", Return (http_x "a=1&a=2"));
    (u "http://x/?a=1&a=2&page=1", Return (http_x "a=1&a=2&page=1"));
    (u "http://x/?page=7&b=2", Return (http_x "page=7&b=2"));
    (u "http://x/?page=3&b=2", Return (http_x "page=3&b=2"));
    (u "http://x/?a=&b=1", Return (http_x "a=&b=1"));
    (u "http://x/?b=1&page=1", Return (http_x "b=1&page=1"));
    (u "http://[", Raise (ValueError (u "Invalid IPv6 URL"))) ].

Definition parse_qs_table : list (str * result (list (str * list str))) :=
  [ (u "a=1&a=2", Return [(u "a", [u "1"; u "2"])]);
    (u "a=1&a=2&page=1", Return [(u "a", [u "1"; u "2"]); (u "page", [u "1"])]);
    (u "page=7&b=2", Return [(u "page", [u "7"]); (u "b", [u "2"])]);
    (u "page=3&b=2", Return [(u "page", [u "3"]); (u "b", [u "2"])]);
    (u "a=&b=1", Return [(u "b", [u "1"])]);
    (u "b=1&page=1", Return [(u "b", [u "1"]); (u "page", [u "1"])]) ].

Definition urlencode_table : list (qdict * result str) :=
  [ ([(u "a", QList [u "1"; u "2"]); (u "page", QInt 1)],
     Return (u "a=1&a=2&page=1"));
    ([(u "page", QInt 3); (u "b", QList [u "2"])], Return (u "page=3&b=2"));
    ([(u "b", QList [u "1"]); (u "page", QInt 1)], Return (u "b=1&page=1")) ].

Definition urlunparse_table : list (ParseResult * result str) :=
  [ (http_x "a=1&a=2&page=1", Return (u "http://x/?a=1&a=2&page=1"));
    (http_x "page=3&b=2", Return (u "http://x/?page=3&b=2"));
    (http_x "b=1&page=1", Return (u "http://x/?b=1&page=1")) ].

Definition answer {K V : Type} (eqb : K -> K -> bool)
  (table : list (K * result V)) (k : K) : result V :=
  match lookup eqb table k with
  | Some outcome => outcome
  | None => Raise outside
  end.

Definition urlparse := answer str_eqb urlparse_table.
Definition parse_qs := answer str_eqb parse_qs_table.
Definition urlencode := answer qdict_eqb urlencode_table.
Definition urlunparse := answer ParseResult_eqb urlunparse_table.

End Sample.


(** ** Two more manifests

    An entry with a key the parser does not read, and the same entry
    without it, as [safe_load] gives them. *)
Module SampleKeys.

Definition manifest_with_type : str :=
  Sample.lines ["collections:"; "  - name: foo.bar"; "    type: galaxy"].
Definition manifest_without_type : str :=
  Sample.lines ["collections:"; "  - name: foo.bar"].

Definition yaml_table : list (str * load_result) :=
  [ (manifest_with_type,
     Loaded (Sample.collections_of
               (PyList [Sample.entry [("name", "foo.bar"); ("type", "galaxy")]])));
    (manifest_without_type,
     Loaded (Sample.collections_of
               (PyList [Sample.entry [("name", "foo.bar")]]))) ].

Definition safe_load (text : str) : load_result :=
  match Sample.lookup str_eqb yaml_table text with
  | Some outcome => outcome
  | None => LoadRaised Sample.outside
  end.

End SampleKeys.

(** ** Filenames, written out *)

(** [f"{ns}-{name}-{version}.tar.gz"], the text the pattern takes apart. *)
Definition format_filename (ns nm ver : str) : str :=
  ns ++ u "-" ++ nm ++ u "-" ++ ver ++ u ".tar.gz".

(** The grammar as the specification and the message of the [ValueError]
    word it: [{namespace}-{name}-{version}.tar.gz] and nothing after it. *)
Definition spec_filename_grammar (word version_char : char -> bool)
  (filename ns nm ver : str) : Prop :=
  filename = format_filename ns nm ver /\
  ns <> [] /\ forallb word ns = true /\
  nm <> [] /\ forallb word nm = true /\
  ver <> [] /\ forallb version_char ver = true.

(** [filename.count("-")] *)
Definition hyphens (filename : str) : nat :=
  List.length (filter (N.eqb 45%N) filename).

(** [filename.endswith("\n")] *)
Definition ends_with_newline (filename : str) : bool :=
  (last filename 0%N =? LF)%N.

(** The message of the [TypeError] that [iter(v)] raises. *)
Definition not_iterable (v : pyobj) : exn :=
  TypeError (u "'" ++ type_name v ++ u "' object is not iterable").

(** * Properties *)

(** ** Strings *)

Lemma str_eqb_eq (a b : str) : str_eqb a b = true <-> a = b.
Proof.
  revert b; induction a as [|x a IH]; intros [|y b]; simpl;
    try (split; (reflexivity || discriminate)).
  rewrite andb_true_iff, N.eqb_eq, IH.
  split; [intros [-> ->]; reflexivity | intros H; inversion H; auto].
Qed.

Lemma str_eqb_refl (a : str) : str_eqb a a = true.
Proof. apply str_eqb_eq; reflexivity. Qed.

Lemma str_eqb_neq (a b : str) : a <> b -> str_eqb a b = false.
Proof.
  intros H; destruct (str_eqb a b) eqn:E; [|reflexivity].
  apply str_eqb_eq in E; contradiction.
Qed.

Lemma str_in_middle (before needle after : str) :
  str_in needle (before ++ needle ++ after).
Proof. exists before, after; reflexivity. Qed.

(** ** parse_collections_requirements_file *)

Lemma dict_lookup_remove (d : dict) (k : str) :
  dict_lookup (dict_remove d k) k = None.
Proof.
  induction d as [|[key v] d IH]; simpl; [reflexivity|].
  destruct (key_is k key) eqn:E; simpl; [assumption|].
  rewrite E; assumption.
Qed.

Section RequirementsFacts.

Variable safe_load : str -> load_result.
Variable catalog : list (str * str).

Local Abbreviation parse := (parse_collections_requirements_file safe_load catalog).
Local Abbreviation missing_name :=
  (ValidationError (gettext catalog missing_name_message)).

Lemma requirement_entry_spec (collection_req : pyobj) :
  requirement_entry catalog collection_req =
    if has_name collection_req then Return (spec_triple collection_req)
    else Raise missing_name.
Proof.
  destruct collection_req; try reflexivity.
  unfold requirement_entry, has_name, spec_triple, dict_get.
  destruct (dict_lookup d (u "name")) as [[]|]; reflexivity.
Qed.

Lemma collect_spec (items : list pyobj) :
  forall collection_info,
    collect catalog items collection_info =
      if forallb has_name items
      then Return (collection_info ++ map spec_triple items)
      else Raise missing_name.
Proof.
  induction items as [|x items IH]; intros acc; simpl.
  - rewrite app_nil_r; reflexivity.
  - rewrite requirement_entry_spec.
    destruct (has_name x); simpl; [|reflexivity].
    rewrite IH. destruct (forallb has_name items); [|reflexivity].
    rewrite <- app_assoc; reflexivity.
Qed.

Lemma parse_loaded_mapping (text : str) (d : dict) (collections : pyobj) :
  text <> [] ->
  safe_load text = Loaded (PyDict d) ->
  dict_lookup d (u "collections") = Some collections ->
  parse (Some text) = (items <- py_iter collections ;; collect catalog items []).
Proof.
  intros Hne Hload Hkey.
  unfold parse_collections_requirements_file.
  destruct text as [|c text]; [contradiction|]; simpl nonempty; cbv iota.
  rewrite Hload, Hkey; reflexivity.
Qed.

Lemma forallb_has_name_middle (before after : list pyobj) (x : pyobj) :
  has_name x = false -> forallb has_name (before ++ x :: after) = false.
Proof.
  intros H; rewrite forallb_app; simpl; rewrite H.
  apply andb_false_r.
Qed.

(** C8: an absent or empty manifest gives the empty list: nothing is
    parsed and no error is raised. *)
Theorem empty_manifest_returns_empty_list :
  parse_collections_requirements_file safe_load catalog None = Return [] /\
  parse_collections_requirements_file safe_load catalog (Some []) = Return [].
Proof. split; reflexivity. Qed.

(** C6: when the manifest is not empty and [yaml.safe_load] raises a
    [YAMLError], the call raises [ValidationError]; the message is the
    formatted text handed to [gettext], so unless the catalog translates
    that very text it contains both the manifest and the description of
    the parse error. *)
Theorem malformed_yaml_is_validation_error (text err : str) :
  text <> [] ->
  safe_load text = YAMLError err ->
  (exists msg, parse (Some text) = Raise (ValidationError msg)) /\
  (translation catalog (parse_failed_message text err) = None ->
   exists msg,
     parse (Some text) = Raise (ValidationError msg) /\
     str_in text msg /\ str_in err msg).
Proof.
  intros Hne Hload.
  assert (E : parse (Some text) =
              Raise (ValidationError
                       (gettext catalog (parse_failed_message text err)))).
  { unfold parse_collections_requirements_file.
    destruct text; [contradiction|]; simpl nonempty; cbv iota.
    rewrite Hload; reflexivity. }
  split; [eexists; exact E|].
  intros Hcat. exists (parse_failed_message text err).
  unfold gettext in E; rewrite Hcat in E.
  split; [exact E|]. unfold parse_failed_message. split.
  - apply str_in_middle.
  - exists (u "Failed to parse the collection requirements yml: " ++ text ++
            u " with the following error: "), [].
    rewrite app_nil_r, <- !app_assoc; reflexivity.
Qed.

(** C5: when the manifest is not empty and loads, but what it loads is not
    a mapping or is a mapping without the key ["collections"], the call
    raises [ValidationError] with the message that describes the expected
    shape. *)
Theorem wrong_top_level_shape_is_validation_error (text : str) (v : pyobj) :
  text <> [] ->
  safe_load text = Loaded v ->
  top_level_shape v = false ->
  parse (Some text) =
    Raise (ValidationError (gettext catalog expecting_dict_message)).
Proof.
  intros Hne Hload Hshape.
  unfold parse_collections_requirements_file.
  destruct text; [contradiction|]; simpl nonempty; cbv iota.
  rewrite Hload.
  destruct v; try reflexivity.
  unfold top_level_shape, dict_contains in Hshape.
  destruct (dict_lookup d (u "collections")); [discriminate|reflexivity].
Qed.

(** C1, as the code has it: for a manifest that loads as a mapping whose
    ["collections"] is a list, the call returns the triples of the elements
    in the order of the list, one for each, when every mapping among them
    binds ["name"] to something other than [None]; otherwise it raises the
    [ValidationError] about the missing name. *)
Theorem requirements_in_declaration_order (text : str) (d : dict)
  (l : list pyobj) :
  text <> [] ->
  safe_load text = Loaded (PyDict d) ->
  dict_lookup d (u "collections") = Some (PyList l) ->
  parse (Some text) =
    if forallb has_name l then Return (map spec_triple l)
    else Raise missing_name.
Proof.
  intros Hne Hload Hkey.
  rewrite (parse_loaded_mapping Hne Hload Hkey); simpl.
  apply collect_spec.
Qed.

(** C9: a mapping element that binds ["name"] to [None] makes the call
    raise the [ValidationError] about the missing name, and the call
    behaves as it does on the manifest in which that element has no
    ["name"] key at all. *)
Theorem null_name_is_missing_name (text text' : str) (d d' : dict)
  (before after : list pyobj) (e : dict) :
  text <> [] ->
  safe_load text = Loaded (PyDict d) ->
  dict_lookup d (u "collections") = Some (PyList (before ++ PyDict e :: after)) ->
  dict_lookup e (u "name") = Some PyNone ->
  text' <> [] ->
  safe_load text' = Loaded (PyDict d') ->
  dict_lookup d' (u "collections") =
    Some (PyList (before ++ PyDict (dict_remove e (u "name")) :: after)) ->
  parse (Some text) = Raise missing_name /\
  parse (Some text') = parse (Some text).
Proof.
  intros Hne Hload Hkey Hnull Hne' Hload' Hkey'.
  rewrite (parse_loaded_mapping Hne Hload Hkey).
  rewrite (parse_loaded_mapping Hne' Hload' Hkey'); simpl.
  rewrite !collect_spec, !forallb_has_name_middle; auto.
  - simpl. rewrite dict_lookup_remove; reflexivity.
  - simpl. rewrite Hnull; reflexivity.
Qed.

(** C10: the value bound to ["collections"] is iterated without a check
    that it is a list: [None] there ends the call with the [TypeError] of
    the iteration, and a string there gives one triple for each of its
    characters. *)
Theorem collections_value_is_not_checked (text : str) (d : dict) :
  text <> [] ->
  safe_load text = Loaded (PyDict d) ->
  (dict_lookup d (u "collections") = Some PyNone ->
   parse (Some text) =
     Raise (TypeError (u "'NoneType' object is not iterable"))) /\
  (forall s,
     dict_lookup d (u "collections") = Some (PyStr s) ->
     parse (Some text) =
       Return (map (fun c => (PyStr [c], PyStr (u "*"), PyNone)) s)).
Proof.
  intros Hne Hload; split.
  - intros Hkey. rewrite (parse_loaded_mapping Hne Hload Hkey); reflexivity.
  - intros s Hkey. rewrite (parse_loaded_mapping Hne Hload Hkey); simpl.
    rewrite collect_spec.
    assert (H : forall t, forallb has_name (map (fun c => PyStr [c]) t) = true)
      by (induction t; simpl; auto).
    rewrite H, map_map; reflexivity.
Qed.

End RequirementsFacts.

(** ** The matcher *)

Section Greedy.

Variable cls : char -> bool.
Variable k : str -> option (list str).

Lemma greedy_stops (c : char) (s taken : str) :
  cls c = false -> greedy cls k (c :: s) taken = None.
Proof. intros H; simpl; rewrite H; reflexivity. Qed.

(** When the rest of the pattern matches at no later position, the group
    cannot start here. *)
Lemma greedy_fails (s : str) :
  forall taken,
    (forall a b, s = a ++ b -> a <> [] -> k b = None) ->
    greedy cls k s taken = None.
Proof.
  induction s as [|x s IH]; intros taken H; simpl; [reflexivity|].
  destruct (cls x); [|reflexivity].
  rewrite IH.
  - rewrite (H [x] s); [reflexivity|reflexivity|discriminate].
  - intros a b -> Ha. apply (H (x :: a) b); [reflexivity|discriminate].
Qed.

(** The group takes exactly [v] when it cannot go on after [v] and the
    rest of the pattern matches there. *)
Lemma greedy_takes (rest : str) (r : list str) :
  (forall t, greedy cls k rest t = None) ->
  k rest = Some r ->
  forall v taken,
    v <> [] -> forallb cls v = true ->
    greedy cls k (v ++ rest) taken = Some ((taken ++ v) :: r).
Proof.
  intros Hstop Hk.
  induction v as [|x v IH]; intros taken Hne Hall; [contradiction|].
  simpl in Hall; apply andb_true_iff in Hall as [Hx Hv].
  simpl; rewrite Hx.
  destruct v as [|y v].
  - simpl; rewrite Hstop, Hk; reflexivity.
  - rewrite IH; [|discriminate|assumption].
    rewrite <- app_assoc; reflexivity.
Qed.

(** Whatever the group takes is a non-empty run of its class, and the rest
    of the pattern matched right behind it. *)
Lemma greedy_inv (s : str) :
  forall taken g,
    greedy cls k s taken = Some g ->
    exists v rest r,
      s = v ++ rest /\ v <> [] /\ forallb cls v = true /\
      k rest = Some r /\ g = (taken ++ v) :: r.
Proof.
  induction s as [|x s IH]; intros taken g H; simpl in H; [discriminate|].
  destruct (cls x) eqn:Hx; [|discriminate].
  destruct (greedy cls k s (taken ++ [x])) as [g'|] eqn:G.
  - injection H as <-.
    apply IH in G as (v & rest & r & -> & _ & Hv & Hk & ->).
    exists (x :: v), rest, r; repeat split; try assumption.
    + discriminate.
    + simpl; rewrite Hx; assumption.
    + rewrite <- app_assoc; reflexivity.
  - destruct (k s) as [r|] eqn:Hk; [|discriminate].
    injection H as <-.
    exists [x], s, r; repeat split; try assumption.
    + discriminate.
    + simpl; rewrite Hx; reflexivity.
Qed.

End Greedy.

Lemma run_lit_inv (c : char) (p : regex) (b : bool) (s : str) (r : list str) :
  run (Lit c :: p) b s = Some r ->
  exists s', s = c :: s' /\ run p false s' = Some r.
Proof.
  simpl; destruct s as [|x s]; [discriminate|].
  destruct (x =? c)%N eqn:E; [|discriminate].
  apply N.eqb_eq in E as ->; intros H; exists s; auto.
Qed.

Lemma run_eol_inv (b : bool) (s : str) (r : list str) :
  run [Eol] b s = Some r -> r = [] /\ (s = [] \/ s = [LF]).
Proof.
  simpl; destruct s as [|x [|y s]]; try discriminate.
  - intros H; injection H as <-; auto.
  - destruct (x =? LF)%N eqn:E; [|discriminate].
    apply N.eqb_eq in E as ->; intros H; injection H as <-; auto.
Qed.

Lemma run_group_inv (label : string) (cls : char -> bool) (p : regex)
  (b : bool) (s : str) (g : list str) :
  run (Group label cls :: p) b s = Some g ->
  exists v rest r,
    s = v ++ rest /\ v <> [] /\ forallb cls v = true /\
    run p false rest = Some r /\ g = v :: r.
Proof. intros H; apply greedy_inv in H; exact H. Qed.

Lemma suffix_inv (s : str) (r : list str) :
  run (literal ".tar.gz" ++ [Eol]) false s = Some r ->
  r = [] /\ exists tail, s = u ".tar.gz" ++ tail /\ (tail = [] \/ tail = [LF]).
Proof.
  intros H; change (literal ".tar.gz" ++ [Eol]) with
    [Lit 46; Lit 116; Lit 97; Lit 114; Lit 46; Lit 103; Lit 122; Eol]%N in H.
  repeat (apply run_lit_inv in H as (? & -> & H)).
  apply run_eol_inv in H as [-> H].
  split; [reflexivity|]. eexists; split; [reflexivity|assumption].
Qed.

Lemma suffix_matches (tail : str) :
  tail = [] \/ tail = [LF] ->
  run (literal ".tar.gz" ++ [Eol]) false (u ".tar.gz" ++ tail) = Some [].
Proof. intros [-> | ->]; reflexivity. Qed.

Lemma version_stops_at_suffix (tail : str) :
  tail = [] \/ tail = [LF] ->
  forall t,
    greedy version_char (run (literal ".tar.gz" ++ [Eol]) false)
      (u ".tar.gz" ++ tail) t = None.
Proof. intros [-> | ->] t; reflexivity. Qed.

(** ** Semantic versions are spelled in the alphabet of the version group *)

Lemma cut_spec (sep : char) (s : str) :
  forall before after,
    cut sep s = (before, after) ->
    s = before ++ match after with Some t => sep :: t | None => [] end.
Proof.
  induction s as [|c s IH]; simpl; intros before after H.
  - injection H as <- <-; reflexivity.
  - destruct (c =? sep)%N eqn:E.
    + apply N.eqb_eq in E as ->. injection H as <- <-; reflexivity.
    + destruct (cut sep s) as [b a]. injection H as <- <-.
      simpl; f_equal; apply IH; reflexivity.
Qed.

Lemma split_nonempty (sep : char) (s : str) : split sep s <> [].
Proof.
  destruct s as [|c s]; simpl; [discriminate|].
  destruct (c =? sep)%N; [discriminate|].
  destruct (split sep s); discriminate.
Qed.

Lemma split_forallb (P : char -> bool) (sep : char) (s : str) :
  P sep = true ->
  forallb (forallb P) (split sep s) = true ->
  forallb P s = true.
Proof.
  intros Hsep; induction s as [|c s IH]; simpl; [reflexivity|].
  destruct (c =? sep)%N eqn:E.
  - apply N.eqb_eq in E as ->. simpl; intros H; rewrite Hsep, IH; auto.
  - destruct (split sep s) as [|field rest'] eqn:S.
    + destruct (split_nonempty _ _ S).
    + simpl in *. intros H.
      apply andb_true_iff in H as [H1 H2].
      apply andb_true_iff in H1 as [Hc Hf].
      rewrite Hc, IH; [reflexivity|]. rewrite Hf, H2; reflexivity.
Qed.

Lemma forallb_weaken {A : Type} (P Q : A -> bool) (l : list A) :
  (forall x, P x = true -> Q x = true) ->
  forallb P l = true -> forallb Q l = true.
Proof.
  intros H; induction l as [|x l IH]; simpl; [reflexivity|].
  intros E; apply andb_true_iff in E as [E1 E2].
  rewrite (H _ E1), IH; auto.
Qed.

Lemma digit_version_char (c : char) : is_digit c = true -> version_char c = true.
Proof. unfold version_char; intros ->; reflexivity. Qed.

Lemma identifier_version_char (c : char) :
  identifier_char c = true -> version_char c = true.
Proof.
  unfold identifier_char, version_char.
  destruct (is_digit c), (is_upper c), (is_lower c), (c =? 45)%N,
    (c =? 46)%N, (c =? 43)%N; simpl; auto.
Qed.

Lemma numeric_identifier_chars (s : str) :
  numeric_identifier s = true -> forallb version_char s = true.
Proof.
  intros H. apply forallb_weaken with (P := is_digit).
  - exact digit_version_char.
  - destruct s as [|c [|c' s]]; simpl in *; try discriminate.
    + rewrite H; reflexivity.
    + apply andb_true_iff in H as [H _]; exact H.
Qed.

Lemma build_identifier_chars (s : str) :
  build_identifier s = true -> forallb version_char s = true.
Proof.
  destruct s; [discriminate|]. unfold build_identifier.
  apply forallb_weaken; exact identifier_version_char.
Qed.

Lemma prerelease_identifier_chars (s : str) :
  prerelease_identifier s = true -> forallb version_char s = true.
Proof.
  unfold prerelease_identifier; intros H.
  apply andb_true_iff in H as [H _]; apply build_identifier_chars, H.
Qed.

Lemma version_core_chars (s : str) :
  version_core s = true -> s <> [] /\ forallb version_char s = true.
Proof.
  unfold version_core; intros H; split.
  - intros ->; discriminate.
  - apply split_forallb with (sep := 46%N); [reflexivity|].
    destruct (split 46%N s) as [|a [|b [|c [|]]]]; try discriminate.
    apply andb_true_iff in H as [H Hc].
    apply andb_true_iff in H as [Ha Hb].
    simpl.
    rewrite (numeric_identifier_chars _ Ha), (numeric_identifier_chars _ Hb),
      (numeric_identifier_chars _ Hc).
    reflexivity.
Qed.

Lemma identifiers_chars (P : str -> bool) (s : str) :
  (forall x, P x = true -> forallb version_char x = true) ->
  forallb P (split 46%N s) = true -> forallb version_char s = true.
Proof.
  intros HP H. apply split_forallb with (sep := 46%N); [reflexivity|].
  revert H; apply forallb_weaken; exact HP.
Qed.

Lemma is_semver_chars (v : str) :
  is_semver v = true -> v <> [] /\ forallb version_char v = true.
Proof.
  unfold is_semver.
  destruct (cut 43%N v) as [core_pre build] eqn:Cb.
  destruct (cut 45%N core_pre) as [core pre] eqn:Cp.
  intros H. apply andb_true_iff in H as [H Hbuild].
  apply andb_true_iff in H as [Hcore Hpre].
  apply cut_spec in Cb, Cp. subst v core_pre.
  apply version_core_chars in Hcore as [Hne Hcore].
  split.
  - destruct core; [contradiction|discriminate].
  - assert (Hp : forallb version_char
                   (match pre with Some t => 45%N :: t | None => [] end) = true).
    { destruct pre as [p|]; [|reflexivity].
      simpl. apply (@identifiers_chars _ _ prerelease_identifier_chars Hpre). }
    assert (Hb : forallb version_char
                   (match build with Some t => 43%N :: t | None => [] end) = true).
    { destruct build as [b|]; [|reflexivity].
      simpl. apply (@identifiers_chars _ _ build_identifier_chars Hbuild). }
    rewrite !forallb_app.
    apply andb_true_iff; split; [apply andb_true_iff; split|]; assumption.
Qed.

(** ** parse_collection_filename *)

Section FilenameFacts.

Variable unicode_alnum : char -> bool.
Variable Version_parse : str -> option str.

Local Abbreviation w := (word unicode_alnum).
Local Abbreviation grammar := (filename_grammar w version_char).
Local Abbreviation parse := (parse_collection_filename unicode_alnum Version_parse).

Lemma hyphen_not_word : w 45%N = false.
Proof. reflexivity. Qed.

(** The pattern matches every string of its grammar, and the groups are
    the three parts. *)
Lemma match_of_grammar (filename ns nm ver : str) :
  grammar filename ns nm ver ->
  re_match (FILENAME_RE unicode_alnum) filename = Some [ns; nm; ver].
Proof.
  intros (tail & -> & Htail & Hns & Wns & Hnm & Wnm & Hver & Wver).
  unfold re_match, FILENAME_RE. cbn [app run].
  refine (@greedy_takes w _ _ [nm; ver] _ _ ns [] Hns Wns).
  - intros t; apply greedy_stops, hyphen_not_word.
  - cbn [run]. rewrite N.eqb_refl.
    refine (@greedy_takes w _ _ [ver] _ _ nm [] Hnm Wnm).
    + intros t; apply greedy_stops, hyphen_not_word.
    + cbn [run]. rewrite N.eqb_refl.
      refine (@greedy_takes version_char _ _ [] _ _ ver [] Hver Wver).
      * apply version_stops_at_suffix, Htail.
      * apply suffix_matches, Htail.
Qed.

(** Whatever the pattern matches is a string of its grammar. *)
Lemma grammar_of_match (filename : str) (groups : list str) :
  re_match (FILENAME_RE unicode_alnum) filename = Some groups ->
  exists ns nm ver, groups = [ns; nm; ver] /\ grammar filename ns nm ver.
Proof.
  unfold re_match, FILENAME_RE. cbn [app]. intros H.
  change (run (Group "namespace" w :: Lit 45 :: Group "name" w :: Lit 45 ::
               Group "version" version_char :: literal ".tar.gz" ++ [Eol])%N
            true filename = Some groups) in H.
  apply run_group_inv in H as (ns & rest & r & -> & Hns & Wns & H & ->).
  apply run_lit_inv in H as (rest' & -> & H).
  apply run_group_inv in H as (nm & rest & r' & -> & Hnm & Wnm & H & ->).
  apply run_lit_inv in H as (rest' & -> & H).
  apply run_group_inv in H as (ver & rest & r'' & -> & Hver & Wver & H & ->).
  apply suffix_inv in H as (-> & tail & -> & Htail).
  exists ns, nm, ver; split; [reflexivity|].
  exists tail; repeat split; assumption.
Qed.

Lemma grammar_functional (filename ns nm ver ns' nm' ver' : str) :
  grammar filename ns nm ver -> grammar filename ns' nm' ver' ->
  ns = ns' /\ nm = nm' /\ ver = ver'.
Proof.
  intros H H'. apply match_of_grammar in H, H'.
  rewrite H in H'; injection H' as -> -> ->; auto.
Qed.

(** The cases of the parser, against what the Python pattern matches (its
    [$] included, so with one newline allowed after [.tar.gz]): a filename
    the pattern does not match is rejected with the [ValueError] that
    states the expected form; a filename it matches whose version
    [Version.parse] rejects is rejected with the [ValueError] of
    [Version.parse]; and a filename it matches whose version is accepted
    gives the three parts.  There is no other case. *)
Theorem parse_collection_filename_cases (filename : str) :
  (~ (exists ns nm ver, grammar filename ns nm ver) /\
   parse filename = Raise (ValueError invalid_filename_message))
  \/
  (exists ns nm ver,
     grammar filename ns nm ver /\
     ((exists msg, Version_parse ver = Some msg /\
                   parse filename = Raise (ValueError msg))
      \/
      (Version_parse ver = None /\
       parse filename = Return (mkCollectionFilename ns nm ver)))).
Proof.
  unfold parse_collection_filename.
  destruct (re_match (FILENAME_RE unicode_alnum) filename) as [groups|] eqn:M.
  - right. apply grammar_of_match in M as (ns & nm & ver & -> & G).
    exists ns, nm, ver; split; [assumption|].
    destruct (Version_parse ver) as [msg|]; [left; exists msg|right]; auto.
  - left; split; [|reflexivity].
    intros (ns & nm & ver & G). apply match_of_grammar in G. congruence.
Qed.

(** C2: formatting a namespace and a name made of word characters and a
    semantic version, which [Version.parse] accepts, as
    [ns-name-version.tar.gz] and parsing the result gives the three parts
    back. *)
Theorem parse_collection_filename_round_trip (ns nm ver : str) :
  ns <> [] -> forallb w ns = true ->
  nm <> [] -> forallb w nm = true ->
  is_semver ver = true ->
  Version_parse ver = None ->
  parse (ns ++ u "-" ++ nm ++ u "-" ++ ver ++ u ".tar.gz") =
    Return (mkCollectionFilename ns nm ver).
Proof.
  intros Hns Wns Hnm Wnm Hsem Hlib.
  apply is_semver_chars in Hsem as [Hver Wver].
  unfold parse_collection_filename.
  rewrite (@match_of_grammar _ ns nm ver).
  - rewrite Hlib; reflexivity.
  - exists []; rewrite app_nil_r; repeat split; auto.
Qed.

End FilenameFacts.

(** ** get_page_url *)

Lemma qdict_lookup_set (d : qdict) (k : str) (v : qvalue) :
  qdict_lookup (qdict_set d k v) k = Some v.
Proof.
  induction d as [|[k' v'] d IH]; simpl.
  - rewrite str_eqb_refl; reflexivity.
  - destruct (str_eqb k' k) eqn:E; simpl; rewrite E; auto.
Qed.

Lemma qdict_lookup_set_other (d : qdict) (k k' : str) (v : qvalue) :
  k' <> k -> qdict_lookup (qdict_set d k v) k' = qdict_lookup d k'.
Proof.
  intros Hne; induction d as [|[k0 v0] d IH]; simpl.
  - rewrite str_eqb_neq; auto.
  - destruct (str_eqb k0 k) eqn:E; simpl.
    + apply str_eqb_eq in E as ->. rewrite (str_eqb_neq (not_eq_sym Hne)).
      reflexivity.
    + rewrite IH; reflexivity.
Qed.

Lemma qdict_lookup_map {V W : Type} (f : V -> W) (d : list (str * V)) (k : str) :
  qdict_lookup (map (fun kv => (fst kv, f (snd kv))) d) k =
    option_map f (qdict_lookup d k).
Proof.
  induction d as [|[k' v] d IH]; simpl; [reflexivity|].
  destruct (str_eqb k' k); auto.
Qed.

Lemma other_keys_map {V W : Type} (f : V -> W) (d : list (str * V)) :
  other_keys (map (fun kv => (fst kv, f (snd kv))) d) = other_keys d.
Proof. unfold other_keys, keys; rewrite map_map; reflexivity. Qed.

Lemma other_keys_set (d : qdict) (v : qvalue) :
  other_keys (qdict_set d (u "page") v) = other_keys d.
Proof.
  unfold other_keys, keys.
  induction d as [|[k' v'] d IH]; [reflexivity|].
  cbn [qdict_set]. destruct (str_eqb k' (u "page")) eqn:E.
  - reflexivity.
  - cbn [map fst filter]. rewrite E; cbn [negb]. f_equal; exact IH.
Qed.

Section PageUrlFacts.

Variable urlparse : str -> result ParseResult.
Variable parse_qs : str -> result (list (str * list str)).
Variable urlencode : qdict -> result str.
Variable urlunparse : ParseResult -> result str.

Local Abbreviation page_url := (get_page_url urlparse parse_qs urlencode urlunparse).

Lemma get_page_url_returns (url : str) (page : Z) (parsed_url : ParseResult)
  (parsed_query : list (str * list str)) (encoded : str) :
  urlparse url = Return parsed_url ->
  parse_qs (query parsed_url) = Return parsed_query ->
  urlencode (new_query parsed_query page) = Return encoded ->
  page_url url page = urlunparse (replace_query parsed_url encoded).
Proof.
  intros H1 H2 H3. unfold get_page_url. rewrite H1; simpl.
  rewrite H2; simpl. fold (new_query parsed_query page).
  rewrite H3; reflexivity.
Qed.

(** C7, as the code has it: the function handles no exception.  It returns
    what [urlunparse] returns when the four calls into [urllib.parse]
    return, and an exception that leaves it was raised by one of them. *)
Theorem get_page_url_raises_what_urllib_raises (url : str) (page : Z) :
  (forall parsed_url parsed_query encoded new_url,
     urlparse url = Return parsed_url ->
     parse_qs (query parsed_url) = Return parsed_query ->
     urlencode (new_query parsed_query page) = Return encoded ->
     urlunparse (replace_query parsed_url encoded) = Return new_url ->
     page_url url page = Return new_url) /\
  (forall e,
     page_url url page = Raise e ->
     urlparse url = Raise e \/
     exists parsed_url,
       urlparse url = Return parsed_url /\
       (parse_qs (query parsed_url) = Raise e \/
        exists parsed_query,
          parse_qs (query parsed_url) = Return parsed_query /\
          (urlencode (new_query parsed_query page) = Raise e \/
           exists encoded,
             urlencode (new_query parsed_query page) = Return encoded /\
             urlunparse (replace_query parsed_url encoded) = Raise e))).
Proof.
  split.
  - intros parsed_url parsed_query encoded new_url H1 H2 H3 H4.
    rewrite (get_page_url_returns _ H1 H2 H3); exact H4.
  - intros e. unfold get_page_url.
    destruct (urlparse url) as [parsed_url|e1]; simpl;
      [|intros H; left; congruence].
    intros H; right; exists parsed_url; split; [reflexivity|].
    destruct (parse_qs (query parsed_url)) as [parsed_query|e2]; simpl in H;
      [|left; congruence].
    right; exists parsed_query; split; [reflexivity|].
    fold (new_query parsed_query page) in H.
    destruct (urlencode (new_query parsed_query page)) as [encoded|e3];
      simpl in H; [|left; congruence].
    right; exists encoded; split; [reflexivity|exact H].
Qed.

(** C4, as the code has it: when the four calls into [urllib.parse] return
    and the new URL reads back as it was written, the query of the new URL
    binds ["page"] to the one value [str(page)] and every other name that
    [parse_qs] found in the query of [url] to the values it had, with the
    names in the order they had; scheme, host, path, parameters and
    fragment are those [urlparse] found in [url]. *)
Theorem get_page_url_sets_page (url : str) (page : Z)
  (parsed_url : ParseResult) (parsed_query : list (str * list str))
  (encoded new_url : str) :
  urlparse url = Return parsed_url ->
  parse_qs (query parsed_url) = Return parsed_query ->
  urlencode (new_query parsed_query page) = Return encoded ->
  urlunparse (replace_query parsed_url encoded) = Return new_url ->
  urlparse new_url = Return (replace_query parsed_url encoded) ->
  parse_qs encoded =
    Return (map (fun kv => (fst kv, written (snd kv)))
              (new_query parsed_query page)) ->
  page_url url page = Return new_url /\
  exists parsed_new new_parsed_query,
    urlparse new_url = Return parsed_new /\
    parse_qs (query parsed_new) = Return new_parsed_query /\
    qdict_lookup new_parsed_query (u "page") = Some [str_of_int page] /\
    (forall k, k <> u "page" ->
               qdict_lookup new_parsed_query k = qdict_lookup parsed_query k) /\
    other_keys new_parsed_query = other_keys parsed_query /\
    scheme parsed_new = scheme parsed_url /\
    netloc parsed_new = netloc parsed_url /\
    path parsed_new = path parsed_url /\
    params parsed_new = params parsed_url /\
    fragment parsed_new = fragment parsed_url.
Proof.
  intros H1 H2 H3 H4 H5 H6. split.
  - rewrite (get_page_url_returns _ H1 H2 H3); exact H4.
  - exists (replace_query parsed_url encoded).
    eexists; split; [exact H5|]. split; [exact H6|].
    repeat split.
    + rewrite qdict_lookup_map. unfold new_query.
      rewrite qdict_lookup_set; reflexivity.
    + intros k Hk. rewrite qdict_lookup_map. unfold new_query.
      rewrite qdict_lookup_set_other by assumption.
      rewrite qdict_lookup_map.
      destruct (qdict_lookup parsed_query k); reflexivity.
    + rewrite other_keys_map. unfold new_query.
      rewrite other_keys_set, other_keys_map; reflexivity.
Qed.

End PageUrlFacts.

(** * The properties on the sample inputs *)

Local Abbreviation requirements :=
  (parse_collections_requirements_file Sample.safe_load []).
Local Abbreviation filename :=
  (parse_collection_filename Sample.unicode_alnum Sample.Version_parse).
Local Abbreviation page_url :=
  (get_page_url Sample.urlparse Sample.parse_qs Sample.urlencode
     Sample.urlunparse).

(** ** Manifests *)

Example two_entries :
  requirements (Some Sample.manifest_two_entries) =
    Return [(PyStr (u "foo.bar"), PyStr (u "*"), PyNone);
            (PyStr (u "foo.baz"), PyStr (u "1.0.0"), PyNone)].
Proof. reflexivity. Qed.

Example duplicates_are_kept :
  requirements (Some Sample.manifest_duplicates) =
    Return [(PyStr (u "foo.bar"), PyStr (u "*"), PyNone);
            (PyStr (u "foo.bar"), PyStr (u "*"), PyNone)].
Proof. reflexivity. Qed.

Example entry_without_name :
  requirements (Some Sample.manifest_no_name) =
    Raise (ValidationError missing_name_message).
Proof. reflexivity. Qed.

Lemma requirements_in_declaration_order_witness :
  Sample.manifest_two_entries <> [] /\
  Sample.safe_load Sample.manifest_two_entries =
    Loaded (Sample.collections_of
              (PyList [PyStr (u "foo.bar");
                       Sample.entry [("name", "foo.baz"); ("version", "1.0.0")]])) /\
  requirements (Some Sample.manifest_two_entries) =
    Return (map spec_triple
              [PyStr (u "foo.bar");
               Sample.entry [("name", "foo.baz"); ("version", "1.0.0")]]).
Proof.
  split; [discriminate|]. split; [reflexivity|].
  exact (@requirements_in_declaration_order Sample.safe_load []
           Sample.manifest_two_entries
           [(PyStr (u "collections"),
             PyList [PyStr (u "foo.bar");
                     Sample.entry [("name", "foo.baz"); ("version", "1.0.0")]])]
           [PyStr (u "foo.bar");
            Sample.entry [("name", "foo.baz"); ("version", "1.0.0")]]
           ltac:(discriminate) eq_refl eq_refl).
Defined.

(** Against C1 as it is worded: the element of this manifest is a mapping
    that contains ["name"], bound to [None], and the call returns no list
    for it. *)
Lemma mapping_with_null_name_is_rejected :
  Sample.safe_load Sample.manifest_null_name =
    Loaded (Sample.collections_of
              (PyList [PyDict [(PyStr (u "name"), PyNone);
                               (PyStr (u "version"), PyStr (u "1.0.0"))]])) /\
  contains_name (PyDict [(PyStr (u "name"), PyNone);
                         (PyStr (u "version"), PyStr (u "1.0.0"))]) = true /\
  requirements (Some Sample.manifest_null_name) =
    Raise (ValidationError missing_name_message) /\
  ~ (exists triples,
       requirements (Some Sample.manifest_null_name) = Return triples).
Proof.
  repeat split; try reflexivity.
  intros [triples H]; vm_compute in H; discriminate.
Qed.

Lemma wrong_top_level_shape_witness :
  Sample.manifest_wrong_shape <> [] /\
  Sample.safe_load Sample.manifest_wrong_shape =
    Loaded (Sample.entry [("not", "a-valid-shape")]) /\
  top_level_shape (Sample.entry [("not", "a-valid-shape")]) = false /\
  requirements (Some Sample.manifest_wrong_shape) =
    Raise (ValidationError expecting_dict_message).
Proof.
  split; [discriminate|]. split; [reflexivity|]. split; [reflexivity|].
  apply (@wrong_top_level_shape_is_validation_error Sample.safe_load []
           Sample.manifest_wrong_shape
           (Sample.entry [("not", "a-valid-shape")])).
  - discriminate.
  - reflexivity.
  - reflexivity.
Defined.

Example sequence_at_top_level :
  requirements (Some Sample.manifest_sequence) =
    Raise (ValidationError expecting_dict_message).
Proof. reflexivity. Qed.

Lemma malformed_yaml_witness :
  Sample.manifest_malformed <> [] /\
  Sample.safe_load Sample.manifest_malformed =
    YAMLError Sample.flow_node_error /\
  exists msg,
    requirements (Some Sample.manifest_malformed) =
      Raise (ValidationError msg) /\
    str_in Sample.manifest_malformed msg /\
    str_in Sample.flow_node_error msg.
Proof.
  split; [discriminate|]. split; [reflexivity|].
  apply (@malformed_yaml_is_validation_error Sample.safe_load []
           Sample.manifest_malformed Sample.flow_node_error).
  - discriminate.
  - reflexivity.
  - reflexivity.
Defined.

Lemma null_name_is_missing_name_witness :
  requirements (Some Sample.manifest_null_name) =
    Raise (ValidationError missing_name_message) /\
  requirements (Some Sample.manifest_no_name) =
    requirements (Some Sample.manifest_null_name).
Proof.
  apply (@null_name_is_missing_name Sample.safe_load []
           Sample.manifest_null_name Sample.manifest_no_name
           [(PyStr (u "collections"),
             PyList [PyDict [(PyStr (u "name"), PyNone);
                             (PyStr (u "version"), PyStr (u "1.0.0"))]])]
           [(PyStr (u "collections"),
             PyList [Sample.entry [("version", "1.0.0")]])]
           [] []
           [(PyStr (u "name"), PyNone);
            (PyStr (u "version"), PyStr (u "1.0.0"))]).
  - discriminate.
  - reflexivity.
  - reflexivity.
  - reflexivity.
  - discriminate.
  - reflexivity.
  - reflexivity.
Defined.

Lemma collections_value_is_not_checked_witness :
  requirements (Some Sample.manifest_null_collections) =
    Raise (TypeError (u "'NoneType' object is not iterable")) /\
  requirements (Some Sample.manifest_string_collections) =
    Return [(PyStr (u "a"), PyStr (u "*"), PyNone);
            (PyStr (u "b"), PyStr (u "*"), PyNone);
            (PyStr (u "c"), PyStr (u "*"), PyNone)].
Proof.
  split.
  - apply (@collections_value_is_not_checked Sample.safe_load []
             Sample.manifest_null_collections
             [(PyStr (u "collections"), PyNone)]).
    + discriminate.
    + reflexivity.
    + reflexivity.
  - exact (proj2 (@collections_value_is_not_checked Sample.safe_load []
                    Sample.manifest_string_collections
                    [(PyStr (u "collections"), PyStr (u "abc"))]
                    ltac:(discriminate) eq_refl)
             (u "abc") eq_refl).
Defined.

(** ** Filenames *)

Example well_formed_filename :
  filename (u "my_namespace-my_name-1.2.3.tar.gz") =
    Return (mkCollectionFilename (u "my_namespace") (u "my_name") (u "1.2.3")).
Proof. reflexivity. Qed.

Example space_in_namespace :
  filename (u "bad name-x-1.0.0.tar.gz") =
    Raise (ValueError invalid_filename_message).
Proof. reflexivity. Qed.

Example version_is_not_semantic :
  filename (u "ns-name-not.a.version.tar.gz") =
    Raise (ValueError (u "Invalid version string: 'not.a.version'")).
Proof. reflexivity. Qed.

(** The hyphens of a pre-release and a [.tar.gz] inside the build metadata
    stay in the version. *)
Example hyphens_in_version :
  filename (u "ns-name-1.2.3-rc-1+b.tar.gz.tar.gz") =
    Return (mkCollectionFilename (u "ns") (u "name") (u "1.2.3-rc-1+b.tar.gz")).
Proof. reflexivity. Qed.

(** [$] accepts one newline after [.tar.gz]. *)
Example newline_after_suffix :
  filename (u "ns-name-1.2.3.tar.gz" ++ [LF]) =
    Return (mkCollectionFilename (u "ns") (u "name") (u "1.2.3")).
Proof. reflexivity. Qed.

Lemma parse_collection_filename_round_trip_witness :
  forallb (word Sample.unicode_alnum) (u "my_namespace") = true /\
  forallb (word Sample.unicode_alnum) (u "my_name") = true /\
  is_semver (u "1.2.3-rc.1+build.5") = true /\
  filename (u "my_namespace" ++ u "-" ++ u "my_name" ++ u "-" ++
            u "1.2.3-rc.1+build.5" ++ u ".tar.gz") =
    Return (mkCollectionFilename (u "my_namespace") (u "my_name")
              (u "1.2.3-rc.1+build.5")).
Proof.
  split; [reflexivity|]. split; [reflexivity|]. split; [reflexivity|].
  exact (@parse_collection_filename_round_trip Sample.unicode_alnum
           Sample.Version_parse (u "my_namespace") (u "my_name")
           (u "1.2.3-rc.1+build.5")
           ltac:(discriminate) eq_refl ltac:(discriminate) eq_refl
           eq_refl eq_refl).
Defined.

(** ** URLs *)

Example page_is_added :
  get_page_url_default Sample.urlparse Sample.parse_qs Sample.urlencode
    Sample.urlunparse (u "http://x/?a=1&a=2") =
    Return (u "http://x/?a=1&a=2&page=1").
Proof. reflexivity. Qed.

Example page_is_replaced :
  page_url (u "http://x/?page=7&b=2") 3 = Return (u "http://x/?page=3&b=2").
Proof. reflexivity. Qed.

Lemma get_page_url_sets_page_witness :
  page_url (u "http://x/?a=1&a=2") 1 = Return (u "http://x/?a=1&a=2&page=1") /\
  exists parsed_new new_parsed_query,
    Sample.urlparse (u "http://x/?a=1&a=2&page=1") = Return parsed_new /\
    Sample.parse_qs (query parsed_new) = Return new_parsed_query /\
    qdict_lookup new_parsed_query (u "page") = Some [u "1"] /\
    (forall k, k <> u "page" ->
               qdict_lookup new_parsed_query k =
                 qdict_lookup [(u "a", [u "1"; u "2"])] k) /\
    other_keys new_parsed_query = [u "a"] /\
    scheme parsed_new = u "http" /\
    netloc parsed_new = u "x" /\
    path parsed_new = u "/" /\
    params parsed_new = [] /\
    fragment parsed_new = [].
Proof.
  exact (@get_page_url_sets_page Sample.urlparse Sample.parse_qs
           Sample.urlencode Sample.urlunparse (u "http://x/?a=1&a=2") 1
           (Sample.http_x "a=1&a=2") [(u "a", [u "1"; u "2"])]
           (u "a=1&a=2&page=1") (u "http://x/?a=1&a=2&page=1")
           eq_refl eq_refl eq_refl eq_refl eq_refl eq_refl).
Defined.

(** Against C4 as it is worded: the field [a=] of this URL has a blank
    value, [parse_qs] leaves it out, and the new URL has no [a]. *)
Lemma blank_parameter_is_dropped :
  Sample.urlparse (u "http://x/?a=&b=1") = Return (Sample.http_x "a=&b=1") /\
  In (u "a=") (fields (u "a=&b=1")) /\
  page_url (u "http://x/?a=&b=1") 1 = Return (u "http://x/?b=1&page=1") /\
  Sample.urlparse (u "http://x/?b=1&page=1") =
    Return (Sample.http_x "b=1&page=1") /\
  fields (u "b=1&page=1") = [u "b=1"; u "page=1"] /\
  Sample.parse_qs (u "b=1&page=1") =
    Return [(u "b", [u "1"]); (u "page", [u "1"])] /\
  ~ In (u "a=") (fields (u "b=1&page=1")).
Proof.
  repeat split; try reflexivity.
  - left; reflexivity.
  - vm_compute. intros [H|[H|[]]]; discriminate.
Qed.

Lemma get_page_url_raises_what_urllib_raises_witness :
  Sample.urlparse (u "http://x/?page=7&b=2") =
    Return (Sample.http_x "page=7&b=2") /\
  page_url (u "http://x/?page=7&b=2") 3 = Return (u "http://x/?page=3&b=2").
Proof.
  split; [reflexivity|].
  exact (proj1 (@get_page_url_raises_what_urllib_raises Sample.urlparse
                  Sample.parse_qs Sample.urlencode Sample.urlunparse
                  (u "http://x/?page=7&b=2") 3)
           (Sample.http_x "page=7&b=2")
           [(u "page", [u "7"]); (u "b", [u "2"])]
           (u "page=3&b=2") (u "http://x/?page=3&b=2")
           eq_refl eq_refl eq_refl eq_refl).
Defined.

(** Against C7 as it is worded: [urlparse] raises [ValueError] on a host
    with an unbalanced bracket, and so does the function. *)
Lemma unbalanced_bracket_raises :
  page_url (u "http://[") 1 = Raise (ValueError (u "Invalid IPv6 URL")) /\
  ~ (exists new_url, page_url (u "http://[") 1 = Return new_url).
Proof.
  split; [reflexivity|].
  intros [new_url H]; vm_compute in H; discriminate.
Qed.

(** * Further properties *)

(** ** What a parsed filename looks like *)

Lemma grammar_assoc (ns nm ver s t : str) :
  ns ++ 45%N :: nm ++ 45%N :: ver ++ s ++ t =
    (ns ++ 45%N :: nm ++ 45%N :: ver ++ s) ++ t.
Proof. repeat (rewrite <- app_assoc; simpl). reflexivity. Qed.

Lemma format_filename_spelled (ns nm ver : str) :
  format_filename ns nm ver = ns ++ 45%N :: nm ++ 45%N :: ver ++ u ".tar.gz".
Proof. reflexivity. Qed.

Lemma cut_at_separator (sep : char) (a b : str) :
  forallb (fun c => negb (c =? sep)%N) a = true ->
  cut sep (a ++ sep :: b) = (a, Some b).
Proof.
  induction a as [|c a IH]; simpl.
  - rewrite N.eqb_refl; reflexivity.
  - intros H; apply andb_true_iff in H as [Hc Ha].
    apply negb_true_iff in Hc; rewrite Hc, (IH Ha); reflexivity.
Qed.

Lemma hyphens_app (a b : str) : hyphens (a ++ b) = hyphens a + hyphens b.
Proof. unfold hyphens; rewrite filter_app, length_app; reflexivity. Qed.

Section FilenameShape.

Variable unicode_alnum : char -> bool.
Variable Version_parse : str -> option str.

Local Abbreviation w := (word unicode_alnum).
Local Abbreviation grammar := (filename_grammar w version_char).
Local Abbreviation parse := (parse_collection_filename unicode_alnum Version_parse).

Lemma word_is_not_hyphen (s : str) :
  forallb w s = true -> forallb (fun c => negb (c =? 45)%N) s = true.
Proof.
  apply forallb_weaken; intros c Hc.
  destruct (c =? 45)%N eqn:E; [|reflexivity].
  apply N.eqb_eq in E; subst c; discriminate.
Qed.

Lemma parse_returns_inv (filename : str) (cf : CollectionFilename) :
  parse filename = Return cf ->
  grammar filename (namespace cf) (name cf) (version cf) /\
  Version_parse (version cf) = None.
Proof.
  unfold parse_collection_filename.
  destruct (re_match (FILENAME_RE unicode_alnum) filename) as [groups|] eqn:M;
    [|discriminate].
  apply grammar_of_match in M as (ns & nm & ver & -> & G).
  destruct (Version_parse ver) eqn:V; [discriminate|].
  intros H; injection H as <-; auto.
Qed.

Lemma parse_of_match (filename filename' : str) :
  re_match (FILENAME_RE unicode_alnum) filename =
    re_match (FILENAME_RE unicode_alnum) filename' ->
  parse filename = parse filename'.
Proof. unfold parse_collection_filename; intros ->; reflexivity. Qed.

(** X1: whatever the parser returns has a namespace and a name that are
    non-empty, made of word characters and free of hyphens, and a version
    that is non-empty, spelled in [[0-9a-zA-Z.+-]] and accepted by
    [Version.parse]. *)
Theorem parsed_filename_fields (filename : str) (cf : CollectionFilename) :
  parse filename = Return cf ->
  (namespace cf <> [] /\ forallb w (namespace cf) = true /\
   ~ In 45%N (namespace cf)) /\
  (name cf <> [] /\ forallb w (name cf) = true /\ ~ In 45%N (name cf)) /\
  (version cf <> [] /\ forallb version_char (version cf) = true /\
   Version_parse (version cf) = None).
Proof.
  intros H. apply parse_returns_inv in H as [G V].
  destruct G as (tail & _ & _ & Hns & Wns & Hnm & Wnm & Hver & Wver).
  assert (no_hyphen : forall s, forallb w s = true -> ~ In 45%N s).
  { intros s Ws Hin. apply word_is_not_hyphen in Ws.
    rewrite forallb_forall in Ws. specialize (Ws _ Hin). discriminate. }
  repeat split; auto.
Qed.

(** X2: a filename the parser accepts is its three parts written as
    [ns-name-version.tar.gz], or that text followed by one newline. *)
Theorem parsed_filename_formats_back (filename : str) (cf : CollectionFilename) :
  parse filename = Return cf ->
  filename = format_filename (namespace cf) (name cf) (version cf) \/
  filename = format_filename (namespace cf) (name cf) (version cf) ++ [LF].
Proof.
  intros H. apply parse_returns_inv in H as [G _].
  destruct G as (tail & -> & [-> | ->] & _); rewrite grammar_assoc.
  - left; rewrite app_nil_r; reflexivity.
  - right; reflexivity.
Qed.

(** X3: the namespace is the text before the first hyphen of the filename
    and the name the text between the first and the second; hyphens after
    the second belong to the version. *)
Theorem parsed_filename_splits_at_first_hyphens (filename : str)
  (cf : CollectionFilename) :
  parse filename = Return cf ->
  exists rest rest',
    cut 45%N filename = (namespace cf, Some rest) /\
    cut 45%N rest = (name cf, Some rest') /\
    (rest' = version cf ++ u ".tar.gz" \/
     rest' = version cf ++ u ".tar.gz" ++ [LF]).
Proof.
  intros H. apply parse_returns_inv in H as [G _].
  destruct G as (tail & -> & Htail & _ & Wns & _ & Wnm & _).
  eexists; eexists; split; [|split].
  - apply cut_at_separator, word_is_not_hyphen, Wns.
  - apply cut_at_separator, word_is_not_hyphen, Wnm.
  - destruct Htail as [-> | ->]; [left; rewrite app_nil_r|right]; reflexivity.
Qed.

Lemma match_with_newline (filename : str) :
  ends_with_newline filename = false ->
  re_match (FILENAME_RE unicode_alnum) (filename ++ [LF]) =
    re_match (FILENAME_RE unicode_alnum) filename.
Proof.
  unfold ends_with_newline; intros Hlast.
  destruct (re_match (FILENAME_RE unicode_alnum) filename) as [groups|] eqn:M.
  - apply grammar_of_match in M as (ns & nm & ver & -> & G).
    destruct G as (tail & -> & [-> | ->] & Hrest).
    + apply match_of_grammar. exists [LF]; split.
      * rewrite (grammar_assoc ns nm ver (u ".tar.gz") []), app_nil_r.
        rewrite <- grammar_assoc; reflexivity.
      * split; [right; reflexivity|assumption].
    + rewrite grammar_assoc, last_last in Hlast. discriminate.
  - destruct (re_match (FILENAME_RE unicode_alnum) (filename ++ [LF]))
      as [groups|] eqn:M'; [|reflexivity].
    apply grammar_of_match in M' as (ns & nm & ver & -> & G).
    destruct G as (tail & E & [-> | ->] & Hrest).
    + change (u ".tar.gz" ++ []) with (u ".tar.g" ++ [122%N]) in E.
      rewrite grammar_assoc in E. apply app_inj_tail in E as [_ E].
      discriminate.
    + rewrite grammar_assoc in E. apply app_inj_tail in E as [E _].
      assert (G : grammar filename ns nm ver).
      { exists []; split; [rewrite E, grammar_assoc, app_nil_r; reflexivity|].
        split; [left; reflexivity|assumption]. }
      apply match_of_grammar in G. congruence.
Qed.

(** X4: one newline after a filename is ignored: a filename that does not
    end in a newline is parsed the same with a newline added, whether the
    outcome is a triple or an error. *)
Theorem newline_after_filename_is_ignored (filename : str) :
  ends_with_newline filename = false ->
  parse (filename ++ [LF]) = parse filename.
Proof. intros H; apply parse_of_match, match_with_newline, H. Qed.

(** X5: a filename with fewer than two hyphens is rejected with the
    [ValueError] that states the expected form, whatever [Version.parse]
    would say. *)
Theorem filename_needs_two_hyphens (filename : str) :
  hyphens filename < 2 ->
  parse filename = Raise (ValueError invalid_filename_message).
Proof.
  intros Hcount. unfold parse_collection_filename.
  destruct (re_match (FILENAME_RE unicode_alnum) filename) as [groups|] eqn:M;
    [|reflexivity].
  apply grammar_of_match in M as (ns & nm & ver & -> & G).
  destruct G as (tail & -> & _).
  rewrite hyphens_app in Hcount.
  change (hyphens (45%N :: nm ++ 45%N :: ver ++ u ".tar.gz" ++ tail))
    with (S (hyphens (nm ++ 45%N :: ver ++ u ".tar.gz" ++ tail))) in Hcount.
  rewrite hyphens_app in Hcount.
  change (hyphens (45%N :: ver ++ u ".tar.gz" ++ tail))
    with (S (hyphens (ver ++ u ".tar.gz" ++ tail))) in Hcount.
  lia.
Qed.

End FilenameShape.

(** ** What the manifest parser looks at, and what it raises *)

Lemma key_is_functional (k k' : str) (key : pyobj) :
  key_is k key = true -> key_is k' key = true -> k = k'.
Proof.
  destruct key; simpl; try discriminate.
  intros H H'; apply str_eqb_eq in H, H'; congruence.
Qed.

Lemma dict_lookup_remove_other (d : dict) (k k' : str) :
  k' <> k -> dict_lookup (dict_remove d k) k' = dict_lookup d k'.
Proof.
  intros Hne; induction d as [|[key v] d IH]; simpl; [reflexivity|].
  destruct (key_is k key) eqn:E; simpl.
  - destruct (key_is k' key) eqn:E'; [|exact IH].
    destruct Hne; symmetry; exact (key_is_functional _ _ _ E E').
  - rewrite IH; reflexivity.
Qed.

Section RequirementsReach.

Variable safe_load : str -> load_result.
Variable catalog : list (str * str).

Local Abbreviation parse := (parse_collections_requirements_file safe_load catalog).

Lemma entry_without_other_key (e : dict) (k : str) :
  k <> u "name" -> k <> u "version" -> k <> u "source" ->
  has_name (PyDict (dict_remove e k)) = has_name (PyDict e) /\
  spec_triple (PyDict (dict_remove e k)) = spec_triple (PyDict e).
Proof.
  intros Hn Hv Hs. unfold has_name, spec_triple.
  rewrite !dict_lookup_remove_other by (apply not_eq_sym; assumption).
  split; reflexivity.
Qed.

(** X6: a key of an entry other than ["name"], ["version"] and ["source"]
    has no effect: the call gives the same triples, or the same error, for
    the manifest with that key in the entry and for the manifest without
    it. *)
Theorem other_entry_keys_are_ignored (text text' : str) (d d' : dict)
  (before after : list pyobj) (e : dict) (k : str) :
  k <> u "name" -> k <> u "version" -> k <> u "source" ->
  text <> [] ->
  safe_load text = Loaded (PyDict d) ->
  dict_lookup d (u "collections") = Some (PyList (before ++ PyDict e :: after)) ->
  text' <> [] ->
  safe_load text' = Loaded (PyDict d') ->
  dict_lookup d' (u "collections") =
    Some (PyList (before ++ PyDict (dict_remove e k) :: after)) ->
  parse (Some text') = parse (Some text).
Proof.
  intros Hn Hv Hs Hne Hload Hkey Hne' Hload' Hkey'.
  destruct (entry_without_other_key e Hn Hv Hs) as [Hhas Htriple].
  rewrite (@parse_loaded_mapping safe_load catalog _ _ _ Hne Hload Hkey).
  rewrite (@parse_loaded_mapping safe_load catalog _ _ _ Hne' Hload' Hkey').
  cbn [py_iter bind]. rewrite !collect_spec, !forallb_app, !map_app.
  cbn [forallb map]. rewrite Hhas, Htriple. reflexivity.
Qed.

(** X7: whatever iterable ["collections"] is bound to, a list, a tuple, a
    set, a string, bytes or a mapping (its keys), its items are taken as
    the entries: the call returns their triples in the order of the
    iteration, or raises the [ValidationError] about the missing name when
    one of them is a mapping without a name. *)
Theorem any_iterable_is_accepted (text : str) (d : dict) (collections : pyobj)
  (items : list pyobj) :
  text <> [] ->
  safe_load text = Loaded (PyDict d) ->
  dict_lookup d (u "collections") = Some collections ->
  py_iter collections = Return items ->
  parse (Some text) =
    if forallb has_name items then Return (map spec_triple items)
    else Raise (ValidationError (gettext catalog missing_name_message)).
Proof.
  intros Hne Hload Hkey Hiter.
  rewrite (@parse_loaded_mapping safe_load catalog _ _ _ Hne Hload Hkey), Hiter;
    simpl.
  apply collect_spec.
Qed.

(** X8: the exceptions that leave the call are the three
    [ValidationError]s of the function, the [TypeError] of iterating a
    value that is not iterable, and an exception other than [YAMLError]
    that [yaml.safe_load] raised; nothing else. *)
Theorem requirements_exceptions (input : option str) (e : exn) :
  parse input = Raise e ->
  (exists text err,
     input = Some text /\ safe_load text = YAMLError err /\
     e = ValidationError (gettext catalog (parse_failed_message text err))) \/
  e = ValidationError (gettext catalog expecting_dict_message) \/
  e = ValidationError (gettext catalog missing_name_message) \/
  (exists text d collections,
     input = Some text /\ safe_load text = Loaded (PyDict d) /\
     dict_lookup d (u "collections") = Some collections /\
     e = not_iterable collections) \/
  (exists text, input = Some text /\ safe_load text = LoadRaised e).
Proof.
  unfold parse_collections_requirements_file.
  destruct input as [[|c text]|]; simpl nonempty; cbv iota; try discriminate.
  destruct (safe_load (c :: text)) as [requirements|err|e'] eqn:L.
  - assert (shape : Raise (A := list requirement)
                      (ValidationError (gettext catalog expecting_dict_message))
                    = Raise e ->
                    e = ValidationError (gettext catalog expecting_dict_message))
      by congruence.
    destruct requirements; try (intros H; right; left; exact (shape H)).
    destruct (dict_lookup d (u "collections")) as [collections|] eqn:K;
      [|intros H; right; left; exact (shape H)].
    destruct (py_iter collections) as [items|e'] eqn:I; simpl.
    + rewrite collect_spec. destruct (forallb has_name items); [discriminate|].
      intros H; right; right; left. injection H as <-; reflexivity.
    + intros H; right; right; right; left.
      exists (c :: text), d, collections; repeat split; try assumption.
      injection H as <-.
      destruct collections; simpl in I; try discriminate;
        injection I as <-; reflexivity.
  - intros H; left; exists (c :: text), err; repeat split; congruence.
  - intros H; right; right; right; right; exists (c :: text); split;
      [reflexivity|congruence].
Qed.

End RequirementsReach.

(** ** The query that is encoded *)


Lemma qdict_set_set (d : qdict) (k : str) (v v' : qvalue) :
  qdict_set (qdict_set d k v) k v' = qdict_set d k v'.
Proof.
  induction d as [|[k' v0] d IH]; simpl.
  - rewrite str_eqb_refl; reflexivity.
  - destruct (str_eqb k' k) eqn:E; simpl; rewrite E; [reflexivity|].
    rewrite IH; reflexivity.
Qed.

Lemma qdict_set_read_back (d : qdict) (k : str) (v v' : qvalue) :
  qdict_set
    (map (fun kv => (fst kv, QList (snd kv)))
       (map (fun kv => (fst kv, written (snd kv))) (qdict_set d k v))) k v' =
  qdict_set
    (map (fun kv => (fst kv, QList (snd kv)))
       (map (fun kv => (fst kv, written (snd kv))) d)) k v'.
Proof.
  induction d as [|[k' v0] d IH]; simpl.
  - rewrite str_eqb_refl; reflexivity.
  - destruct (str_eqb k' k) eqn:E; simpl; rewrite E; [reflexivity|].
    rewrite IH; reflexivity.
Qed.

Lemma written_QList (qs : list (str * list str)) :
  map (fun kv => (fst kv, written (snd kv)))
    (map (fun kv => (fst kv, QList (snd kv))) qs) = qs.
Proof.
  induction qs as [|[k v] qs IH]; simpl; [reflexivity|].
  rewrite IH; reflexivity.
Qed.


Section PageUrlTwice.

Variable urlparse : str -> result ParseResult.
Variable parse_qs : str -> result (list (str * list str)).
Variable urlencode : qdict -> result str.
Variable urlunparse : ParseResult -> result str.

Local Abbreviation page_url := (get_page_url urlparse parse_qs urlencode urlunparse).

(** X10: asking for another page of a URL the function built is asking for
    that page of the original URL, when the built URL reads back as it was
    written: the first page number leaves no trace. *)
Theorem get_page_url_of_page_url (url : str) (page page' : Z)
  (parsed_url : ParseResult) (parsed_query : list (str * list str))
  (encoded new_url : str) :
  urlparse url = Return parsed_url ->
  parse_qs (query parsed_url) = Return parsed_query ->
  urlencode (new_query parsed_query page) = Return encoded ->
  page_url url page = Return new_url ->
  urlparse new_url = Return (replace_query parsed_url encoded) ->
  parse_qs encoded =
    Return (map (fun kv => (fst kv, written (snd kv)))
              (new_query parsed_query page)) ->
  page_url new_url page' = page_url url page'.
Proof.
  intros H1 H2 H3 _ H5 H6.
  unfold get_page_url. rewrite H1, H5; simpl. rewrite H2, H6; simpl.
  unfold new_query. rewrite qdict_set_read_back, written_QList.
  reflexivity.
Qed.


End PageUrlTwice.

(** ** Filenames the pattern turns down *)

Section FilenameRejects.

Variable unicode_alnum : char -> bool.
Variable Version_parse : str -> option str.

Local Abbreviation w := (word unicode_alnum).
Local Abbreviation parse := (parse_collection_filename unicode_alnum Version_parse).

(** X11: when the text before the first hyphen of the filename is empty or
    has a character that is not a word character, the filename is rejected
    with the [ValueError] that states the expected form. *)
Theorem namespace_must_be_a_word (filename before : str) (after : option str) :
  cut 45%N filename = (before, after) ->
  before = [] \/ forallb w before = false ->
  parse filename = Raise (ValueError invalid_filename_message).
Proof.
  intros Hcut Hbad. unfold parse_collection_filename.
  destruct (re_match (FILENAME_RE unicode_alnum) filename) as [groups|] eqn:M;
    [|reflexivity].
  apply grammar_of_match in M as (ns & nm & ver & -> & G).
  destruct G as (tail & -> & _ & Hns & Wns & _).
  rewrite (@cut_at_separator 45%N ns _ (@word_is_not_hyphen _ ns Wns)) in Hcut.
  injection Hcut as <- _.
  destruct Hbad as [Hbad | Hbad]; [contradiction | congruence].
Qed.

End FilenameRejects.

(** ** The further properties on the sample inputs *)

Lemma parsed_filename_fields_witness :
  filename (u "my_namespace-my_name-1.2.3.tar.gz") =
    Return (mkCollectionFilename (u "my_namespace") (u "my_name") (u "1.2.3")) /\
  ~ In 45%N (u "my_namespace") /\ ~ In 45%N (u "my_name") /\
  Sample.Version_parse (u "1.2.3") = None.
Proof.
  split; [reflexivity|].
  destruct (@parsed_filename_fields Sample.unicode_alnum Sample.Version_parse
              (u "my_namespace-my_name-1.2.3.tar.gz")
              (mkCollectionFilename (u "my_namespace") (u "my_name") (u "1.2.3"))
              eq_refl)
    as ((_ & _ & Hns) & (_ & _ & Hnm) & (_ & _ & Hver)).
  exact (conj Hns (conj Hnm Hver)).
Defined.

Lemma parsed_filename_formats_back_witness :
  filename (u "ns-name-1.2.3.tar.gz" ++ [LF]) =
    Return (mkCollectionFilename (u "ns") (u "name") (u "1.2.3")) /\
  (u "ns-name-1.2.3.tar.gz" ++ [LF] =
     format_filename (u "ns") (u "name") (u "1.2.3") \/
   u "ns-name-1.2.3.tar.gz" ++ [LF] =
     format_filename (u "ns") (u "name") (u "1.2.3") ++ [LF]).
Proof.
  split; [reflexivity|].
  exact (@parsed_filename_formats_back Sample.unicode_alnum
           Sample.Version_parse (u "ns-name-1.2.3.tar.gz" ++ [LF])
           (mkCollectionFilename (u "ns") (u "name") (u "1.2.3")) eq_refl).
Defined.

Lemma parsed_filename_splits_at_first_hyphens_witness :
  filename (u "ns-name-1.2.3-rc-1+b.tar.gz.tar.gz") =
    Return (mkCollectionFilename (u "ns") (u "name") (u "1.2.3-rc-1+b.tar.gz")) /\
  exists rest rest',
    cut 45%N (u "ns-name-1.2.3-rc-1+b.tar.gz.tar.gz") = (u "ns", Some rest) /\
    cut 45%N rest = (u "name", Some rest') /\
    (rest' = u "1.2.3-rc-1+b.tar.gz" ++ u ".tar.gz" \/
     rest' = u "1.2.3-rc-1+b.tar.gz" ++ u ".tar.gz" ++ [LF]).
Proof.
  split; [reflexivity|].
  exact (@parsed_filename_splits_at_first_hyphens Sample.unicode_alnum
           Sample.Version_parse (u "ns-name-1.2.3-rc-1+b.tar.gz.tar.gz")
           (mkCollectionFilename (u "ns") (u "name") (u "1.2.3-rc-1+b.tar.gz"))
           eq_refl).
Defined.

Lemma newline_after_filename_is_ignored_witness :
  ends_with_newline (u "ns-name-not.a.version.tar.gz") = false /\
  filename (u "ns-name-not.a.version.tar.gz" ++ [LF]) =
    filename (u "ns-name-not.a.version.tar.gz").
Proof.
  split; [reflexivity|].
  exact (@newline_after_filename_is_ignored Sample.unicode_alnum
           Sample.Version_parse (u "ns-name-not.a.version.tar.gz") eq_refl).
Defined.

Lemma filename_needs_two_hyphens_witness :
  hyphens (u "collection-1.0.0.tar.gz") < 2 /\
  filename (u "collection-1.0.0.tar.gz") =
    Raise (ValueError invalid_filename_message).
Proof.
  assert (H : hyphens (u "collection-1.0.0.tar.gz") < 2)
    by (vm_compute; lia).
  split; [exact H|].
  exact (@filename_needs_two_hyphens Sample.unicode_alnum Sample.Version_parse
           (u "collection-1.0.0.tar.gz") H).
Defined.

Lemma namespace_must_be_a_word_witness :
  cut 45%N (u "bad name-x-1.0.0.tar.gz") =
    (u "bad name", Some (u "x-1.0.0.tar.gz")) /\
  forallb (word Sample.unicode_alnum) (u "bad name") = false /\
  filename (u "bad name-x-1.0.0.tar.gz") =
    Raise (ValueError invalid_filename_message).
Proof.
  split; [reflexivity|]. split; [reflexivity|].
  exact (@namespace_must_be_a_word Sample.unicode_alnum Sample.Version_parse
           (u "bad name-x-1.0.0.tar.gz") (u "bad name")
           (Some (u "x-1.0.0.tar.gz")) eq_refl (or_intror eq_refl)).
Defined.

Lemma other_entry_keys_are_ignored_witness :
  parse_collections_requirements_file SampleKeys.safe_load []
    (Some SampleKeys.manifest_without_type) =
  parse_collections_requirements_file SampleKeys.safe_load []
    (Some SampleKeys.manifest_with_type) /\
  parse_collections_requirements_file SampleKeys.safe_load []
    (Some SampleKeys.manifest_with_type) =
    Return [(PyStr (u "foo.bar"), PyStr (u "*"), PyNone)].
Proof.
  split; [|reflexivity].
  apply (@other_entry_keys_are_ignored SampleKeys.safe_load []
           SampleKeys.manifest_with_type SampleKeys.manifest_without_type
           [(PyStr (u "collections"),
             PyList [Sample.entry [("name", "foo.bar"); ("type", "galaxy")]])]
           [(PyStr (u "collections"),
             PyList [Sample.entry [("name", "foo.bar")]])]
           [] []
           [(PyStr (u "name"), PyStr (u "foo.bar"));
            (PyStr (u "type"), PyStr (u "galaxy"))] (u "type"));
    try reflexivity; try discriminate;
    intros H; vm_compute in H; discriminate H.
Defined.

Lemma any_iterable_is_accepted_witness :
  py_iter (PyStr (u "abc")) =
    Return [PyStr (u "a"); PyStr (u "b"); PyStr (u "c")] /\
  requirements (Some Sample.manifest_string_collections) =
    Return (map spec_triple [PyStr (u "a"); PyStr (u "b"); PyStr (u "c")]).
Proof.
  split; [reflexivity|].
  exact (@any_iterable_is_accepted Sample.safe_load []
           Sample.manifest_string_collections
           [(PyStr (u "collections"), PyStr (u "abc"))] (PyStr (u "abc"))
           [PyStr (u "a"); PyStr (u "b"); PyStr (u "c")]
           ltac:(discriminate) eq_refl eq_refl eq_refl).
Defined.

Lemma requirements_exceptions_witness :
  requirements (Some Sample.manifest_null_collections) =
    Raise (not_iterable PyNone) /\
  exists text d collections,
    Some Sample.manifest_null_collections = Some text /\
    Sample.safe_load text = Loaded (PyDict d) /\
    dict_lookup d (u "collections") = Some collections /\
    not_iterable PyNone = not_iterable collections.
Proof.
  split; [reflexivity|].
  destruct (@requirements_exceptions Sample.safe_load []
              (Some Sample.manifest_null_collections) (not_iterable PyNone)
              eq_refl)
    as [(text & err & E & L & _) | [H | [H | [H | (text & E & L)]]]].
  - injection E as <-; vm_compute in L; discriminate L.
  - vm_compute in H; discriminate H.
  - vm_compute in H; discriminate H.
  - exact H.
  - injection E as <-; vm_compute in L; discriminate L.
Defined.

Lemma get_page_url_of_page_url_witness :
  page_url (u "http://x/?page=7&b=2") 3 = Return (u "http://x/?page=3&b=2") /\
  page_url (u "http://x/?page=3&b=2") 3 = page_url (u "http://x/?page=7&b=2") 3.
Proof.
  split; [reflexivity|].
  exact (@get_page_url_of_page_url Sample.urlparse Sample.parse_qs
           Sample.urlencode Sample.urlunparse (u "http://x/?page=7&b=2") 3 3
           (Sample.http_x "page=7&b=2")
           [(u "page", [u "7"]); (u "b", [u "2"])]
           (u "page=3&b=2") (u "http://x/?page=3&b=2")
           eq_refl eq_refl eq_refl eq_refl eq_refl eq_refl).
Defined.


(** ** A filename with a newline after it *)

(** C3, at the input where the code departs from it: [ns-name-1.2.3.tar.gz]
    followed by a newline is no string of the grammar
    [{namespace}-{name}-{version}.tar.gz], whatever the namespace, name and
    version are taken to be, and yet the pattern matches it: the outcome
    is what [Version.parse] says of [1.2.3], and with a parser that accepts
    [1.2.3] the call returns the triple of [ns-name-1.2.3.tar.gz] instead
    of raising the [ValueError] that states the expected form. *)
Theorem newline_filename_is_not_rejected :
  (forall unicode_alnum ns nm ver,
     ~ spec_filename_grammar (word unicode_alnum) version_char
         (u "ns-name-1.2.3.tar.gz" ++ [LF]) ns nm ver) /\
  (forall unicode_alnum Version_parse,
     parse_collection_filename unicode_alnum Version_parse
       (u "ns-name-1.2.3.tar.gz" ++ [LF]) =
     match Version_parse (u "1.2.3") with
     | Some msg => Raise (ValueError msg)
     | None => Return (mkCollectionFilename (u "ns") (u "name") (u "1.2.3"))
     end) /\
  filename (u "ns-name-1.2.3.tar.gz" ++ [LF]) =
    Return (mkCollectionFilename (u "ns") (u "name") (u "1.2.3")).
Proof.
  split; [|split; [intros; reflexivity|reflexivity]].
  intros unicode_alnum ns nm ver (E & _).
  rewrite format_filename_spelled in E.
  change (u ".tar.gz") with (u ".tar.g" ++ [122%N]) in E.
  rewrite (grammar_assoc ns nm ver (u ".tar.g") [122%N]) in E.
  apply app_inj_tail in E as [_ E].
  discriminate E.
Qed.
